(** * Model router (Week 01/utils/router.py)

    A shallow embedding of the routing utilities and the properties that
    the design document states about them.

    Python values are modelled as follows.
    - [str]: Rocq [string]; a character is a code point below 256, and
      [lower] is Python's [str.lower] on that range.
    - the result of [yaml.safe_load]: the inductive [pyval].
    - exceptions: the type [exn], carried by [result].
    - the file system, the working directory and the location of the
      module: the record [world], threaded through the [io] monad; the
      existence test and the working-directory query can raise, as
      [Path.exists] and [Path.cwd] can. *)

From Stdlib Require Import String Ascii ZArith List Bool Lia.
From stdpp Require Import base option gmap strings.

Open Scope string_scope.
Open Scope Z_scope.

(** ** Python strings *)

Module PyStr.

(** [c.lower()] for one character below U+0100: the ASCII capitals and the
    Latin-1 capitals U+00C0..U+00DE (U+00D7, the multiplication sign, has
    no case) move up by 32; every other character is its own lower case. *)
Definition lower_char (c : ascii) : ascii :=
  let n := N_of_ascii c in
  if ((65 <=? n) && (n <=? 90))%N then ascii_of_N (n + 32)
  else if ((192 <=? n) && (n <=? 222) && negb (n =? 215))%N
       then ascii_of_N (n + 32)
       else c.

(** [s.lower()] *)
Fixpoint lower (s : string) : string :=
  match s with
  | EmptyString => EmptyString
  | String c s' => String (lower_char c) (lower s')
  end.

(** [s.startswith(x)] *)
Fixpoint startswith (x s : string) : bool :=
  match x, s with
  | EmptyString, _ => true
  | String _ _, EmptyString => false
  | String a x', String b s' => if Ascii.eqb a b then startswith x' s' else false
  end.

(** [x in s] for two strings: [x] occurs in [s] as a contiguous substring. *)
Fixpoint str_in (x s : string) : bool :=
  startswith x s ||
  match s with
  | EmptyString => false
  | String _ s' => str_in x s'
  end.

(** [any(x in s for x in xs)] *)
Definition any_in (xs : list string) (s : string) : bool :=
  existsb (fun x => str_in x s) xs.

End PyStr.

Import PyStr.

(** ** Values, exceptions and the environment *)

(** What [yaml.safe_load] can hand back: null, booleans, integers,
    strings, sequences and mappings (floats, timestamps and binary scalars
    are left out).  A mapping is kept as its string-keyed part: the router
    only ever looks up [str] keys, and a [str] never equals a key of
    another type. *)
#[warnings="-register-all"] Inductive pyval : Type :=
  | PNone
  | PBool (b : bool)
  | PInt (n : Z)
  | PStr (s : string)
  | PList (l : list pyval)
  | PDict (d : gmap string pyval).

(** The exceptions that can leave the router.  [KeyError] carries its
    argument, [FileNotFoundError] its message. *)
Inductive exn : Type :=
  | FileNotFoundError (msg : string)
  | KeyError (arg : string)
  | TypeError
  | OSError
  | UnicodeDecodeError
  | YAMLError.

Inductive result (A : Type) : Type :=
  | Ok (a : A)
  | Raise (e : exn).

Arguments Ok {A} a.
Arguments Raise {A} e.

(** What is found at an existing path when it is opened as UTF-8 text and
    handed to [yaml.safe_load]. *)
Inductive source : Type :=
  | Loads (v : pyval)      (* parses to [v] *)
  | Unreadable             (* [open] fails, e.g. a directory *)
  | NotUtf8                (* the bytes do not decode *)
  | NotYaml.               (* the parser rejects the text *)

(** The part of the process environment the router reads:
    - [files]: the paths that exist, with what loading each one gives;
    - [cwd]: [Path.cwd()], or [None] when the working directory has been
      removed and [os.getcwd] fails;
    - [fallback_config]: [Path(__file__).parent.parent / "config" /
      "models.yaml"], which depends on where the module is installed;
    - [unstatable]: the paths that do not exist and on which [stat] fails
      with an error that [Path.exists] does not swallow (a name that is too
      long, a parent directory that may not be searched).  [Path.exists]
      swallows ENOENT, ENOTDIR, EBADF and ELOOP only; an interpreter whose
      [exists] never raises is an environment with no such path. *)
Record world : Type := World {
  files : gmap string source;
  cwd : option string;
  fallback_config : string;
  unstatable : gset string
}.

(** ** A state-and-error monad for the calls into the environment *)

Definition io (A : Type) : Type := world -> result A * world.

Definition raise {A} (e : exn) : io A := fun w => (Raise e, w).

Definition lift {A} (r : result A) : io A := fun w => (r, w).

#[global] Instance io_ret : MRet io := fun A a w => (Ok a, w).

#[global] Instance io_bind : MBind io := fun A B k c w =>
  match c w with
  | (Ok a, w') => k a w'
  | (Raise e, w') => (Raise e, w')
  end.

(** [Path(p).exists()]: true for a path that exists, [OSError] when
    [stat] fails in a way that is not swallowed, false otherwise. *)
Definition path_exists (p : string) : io bool :=
  fun w =>
    (match files w !! p with
     | Some _ => Ok true
     | None => if bool_decide (p ∈ unstatable w) then Raise OSError else Ok false
     end, w).

(** The text of the [FileNotFoundError] that [os.getcwd] raises. *)
Definition cwd_gone_message : string := "[Errno 2] No such file or directory".

(** [Path.cwd()] *)
Definition getcwd : io string :=
  fun w =>
    (match cwd w with
     | Some here => Ok here
     | None => Raise (FileNotFoundError cwd_gone_message)
     end, w).

(** [Path(__file__).parent.parent / "config" / "models.yaml"] *)
Definition project_config : io string := fun w => (Ok (fallback_config w), w).

(** [with open(p, "r", encoding="utf-8") as f: yaml.safe_load(f)].  The
    router only opens a path it has just seen to exist; [open] on a missing
    path raises [FileNotFoundError]. *)
Definition safe_load_file (p : string) : io pyval :=
  fun w =>
    match files w !! p with
    | None => (Raise (FileNotFoundError p), w)
    | Some (Loads v) => (Ok v, w)
    | Some Unreadable => (Raise OSError, w)
    | Some NotUtf8 => (Raise UnicodeDecodeError, w)
    | Some NotYaml => (Raise YAMLError, w)
    end.

(** ** Membership and subscription with a [str] key *)

(** [key in c] *)
Definition py_in (key : string) (c : pyval) : result bool :=
  match c with
  | PStr s => Ok (str_in key s)
  | PList l =>
      Ok (existsb (fun v => match v with PStr s => String.eqb key s | _ => false end) l)
  | PDict d => Ok (bool_decide (is_Some (d !! key)))
  | PNone | PBool _ | PInt _ => Raise TypeError
  end.

(** [c[key]] *)
Definition py_getitem (c : pyval) (key : string) : result pyval :=
  match c with
  | PDict d =>
      match d !! key with
      | Some v => Ok v
      | None => Raise (KeyError key)
      end
  | _ => Raise TypeError
  end.

(** ** The router *)

Definition nl : string := String "010"%char EmptyString.

(** The f-string of lines 34-37. *)
Definition not_found_message (config_path config_file cwd : string) : string :=
  "Model config not found. Tried:" +:+ nl +:+
  "  - " +:+ config_path +:+ nl +:+
  "  - " +:+ config_file +:+ nl +:+
  "Current working directory: " +:+ cwd.

(** The f-string of line 48. *)
Definition provider_message (provider config_path : string) : string :=
  "Provider '" +:+ provider +:+ "' not found in " +:+ config_path.

(** Lines 52-62: the tier chosen from the technique when none is given. *)
Definition infer_tier (technique : string) : string :=
  let technique_lower := lower technique in
  if any_in ["cot"; "tot"; "reason"; "think"] technique_lower then "reason"
  else if any_in ["strong"; "complex"; "advanced"] technique_lower then "strong"
  else "general".

(** Lines 23-30 and 73-78: the supplied path if it exists, else the path
    under the project root. *)
Definition candidate (config_path : string) : io string :=
  found ← path_exists config_path;
  if negb found then project_config else mret config_path.

Definition pick_model (provider technique : string) (tier : option string)
    (config_path : string) : io pyval :=
  config_file ← candidate config_path;
  found ← path_exists config_file;
  if negb found then
    here ← getcwd;
    raise (FileNotFoundError (not_found_message config_path config_file here))
  else
    config ← safe_load_file config_file;
    known ← lift (py_in provider config);
    if negb known then
      raise (KeyError (provider_message provider config_path))
    else
      let tier :=
        match tier with
        | None => infer_tier technique
        | Some t => t
        end in
      entry ← lift (py_getitem config provider);
      present ← lift (py_in tier entry);
      let tier := if negb present then "general" else tier in
      entry ← lift (py_getitem config provider);
      lift (py_getitem entry tier).

Definition list_available_models (config_path : string) : io pyval :=
  config_file ← candidate config_path;
  found ← path_exists config_file;
  if negb found then mret (PDict ∅)
  else safe_load_file config_file.

Definition get_context_window (model : string) : Z :=
  let model_lower := lower model in
  if any_in ["gpt-4o"; "o3"; "o1"; "gpt-4"] model_lower then 128000
  else if str_in "gpt-3.5" model_lower then 16385
  else if str_in "gemini-3" model_lower then 2000000
  else if str_in "gemini-2" model_lower then 2000000
  else if str_in "gemini-1.5" model_lower then 1000000
  else if str_in "llama-3.1" model_lower || str_in "llama-3.2" model_lower then 131072
  else if str_in "deepseek-r1" model_lower then 65536
  else 8000.

Section ConfigLoader.

(** Modelled from the spec: the module [config_loader] is not part of the
    sources.  Its [should_auto_route_reasoning()] is the global flag
    "auto-route to reasoning models", and its [get_reasoning_techniques()]
    is the collection of recognised reasoning keywords, a list of
    strings. *)
Variable should_auto_route_reasoning : bool.
Variable get_reasoning_techniques : list string.

Definition should_use_reasoning_model (technique : string) : bool :=
  if negb should_auto_route_reasoning then false
  else
    let technique_lower := lower technique in
    let reasoning_techniques := get_reasoning_techniques in
    if existsb (String.eqb technique_lower) reasoning_techniques then true
    else existsb (fun keyword => str_in keyword technique_lower) reasoning_techniques.

End ConfigLoader.

(** ** Vocabulary of the design document *)

(** "[x] occurs in [s]": [s] is some prefix, then [x], then some suffix. *)
Definition substring_of (x s : string) : Prop :=
  ∃ a b, s = a +:+ x +:+ b.

(** "[s] contains any of [kws]". *)
Definition contains_any (kws : list string) (s : string) : Prop :=
  ∃ k, k ∈ kws ∧ substring_of k s.

Definition reason_keywords : list string := ["cot"; "tot"; "reason"; "think"].
Definition strong_keywords : list string := ["strong"; "complex"; "advanced"].

(** Section 4.2, step 2: the tier that goes with a lower-cased technique,
    first match wins. *)
Definition keyword_tier (technique_lower tier : string) : Prop :=
  (contains_any reason_keywords technique_lower ∧ tier = "reason") ∨
  (¬ contains_any reason_keywords technique_lower ∧
   contains_any strong_keywords technique_lower ∧ tier = "strong") ∨
  (¬ contains_any reason_keywords technique_lower ∧
   ¬ contains_any strong_keywords technique_lower ∧ tier = "general").

(** The tier a call resolves before the fallback: the explicit one, or the
    inferred one. *)
Definition resolved_tier (tier : option string) (technique : string) : string :=
  match tier with
  | None => infer_tier technique
  | Some t => t
  end.

(** [Path(p).exists()] returns false: nothing is at [p], and [stat] says
    so. *)
Definition absent (w : world) (p : string) : Prop :=
  files w !! p = None ∧ p ∉ unstatable w.

(** The three ways the search of lines 23-32 and 73-80 can end: a source
    is found at a path, both candidates are absent, or one of the
    existence tests raises. *)
Inductive search_outcome : Type :=
  | Found (p : string) (src : source)
  | Missing
  | StatFails.

Definition search (w : world) (config_path : string) : search_outcome :=
  match files w !! config_path with
  | Some src => Found config_path src
  | None =>
      if bool_decide (config_path ∈ unstatable w) then StatFails
      else
        match files w !! fallback_config w with
        | Some src => Found (fallback_config w) src
        | None =>
            if bool_decide (fallback_config w ∈ unstatable w) then StatFails
            else Missing
        end
  end.

(** Section 4.1: what a call finds for [config_path] in world [w]: the
    supplied path first, the path under the project root second. *)
Definition located (w : world) (config_path : string) : option source :=
  match search w config_path with
  | Found _ src => Some src
  | Missing | StatFails => None
  end.

(** Section 3: a configuration maps providers to mappings from tiers to
    model identifiers, and every provider defines "general". *)
Definition is_str (v : pyval) : bool :=
  match v with PStr _ => true | _ => false end.

Definition is_mapping (v : pyval) : bool :=
  match v with PDict _ => true | _ => false end.

Definition well_formed_entry (e : pyval) : bool :=
  match e with
  | PDict m =>
      bool_decide (is_Some (m !! "general")) &&
      bool_decide (map_Forall (λ _ v, is_str v = true) m)
  | _ => false
  end.

Definition well_formed (config : pyval) : bool :=
  match config with
  | PDict d => bool_decide (map_Forall (λ _ e, well_formed_entry e = true) d)
  | _ => false
  end.

(** Section 7: the error kinds of the design, and the exception class that
    stands for each in the code. *)
Inductive error_kind : Type :=
  | ConfigNotFound
  | MalformedConfig
  | ProviderNotFound.

Definition kind_of (e : exn) : option error_kind :=
  match e with
  | FileNotFoundError _ => Some ConfigNotFound
  | YAMLError => Some MalformedConfig
  | KeyError _ => Some ProviderNotFound
  | TypeError | OSError | UnicodeDecodeError => None
  end.

(** Section 4.4: the rule table, and its reading "first matching row wins,
    else the default". *)
Definition context_rules : list (list string * Z) :=
  [ (["gpt-4o"; "o3"; "o1"; "gpt-4"], 128000);
    (["gpt-3.5"], 16385);
    (["gemini-3"], 2000000);
    (["gemini-2"], 2000000);
    (["gemini-1.5"], 1000000);
    (["llama-3.1"; "llama-3.2"], 131072);
    (["deepseek-r1"], 65536) ].

Definition default_context_window : Z := 8000.

Inductive first_match (s : string) : list (list string * Z) → Z → Prop :=
  | fm_default : first_match s [] default_context_window
  | fm_here pats cap rest :
      contains_any pats s → first_match s ((pats, cap) :: rest) cap
  | fm_later pats cap rest n :
      ¬ contains_any pats s → first_match s rest n →
      first_match s ((pats, cap) :: rest) n.

(** The table read by a program: the capacity of the first row with a
    pattern that occurs in [s]. *)
Fixpoint scan_rules (rules : list (list string * Z)) (s : string) : Z :=
  match rules with
  | [] => default_context_window
  | (pats, cap) :: rest => if any_in pats s then cap else scan_rules rest s
  end.

(** A computation that leaves the environment as it found it. *)
Definition readonly {A} (c : io A) : Prop := ∀ w, (c w).2 = w.

(** A sample configuration and environment. *)
Definition demo_openai : gmap string pyval :=
  {[ "general" := PStr "gpt-4o-mini"; "reason" := PStr "o3-mini" ]}.

Definition demo_groq : gmap string pyval :=
  {[ "general" := PStr "llama-3.1-8b-instant" ]}.

Definition demo_providers : gmap string pyval :=
  {[ "openai" := PDict demo_openai; "groq" := PDict demo_groq ]}.

Definition demo_config : pyval := PDict demo_providers.

Definition demo_world : world :=
  World {[ "config/models.yaml" := Loads demo_config ]}
        (Some "/home/u/proj") "/home/u/proj/utils/../config/models.yaml" ∅.

Definition empty_file_world : world :=
  World {[ "config/models.yaml" := Loads PNone ]}
        (Some "/home/u/proj") "/home/u/proj/config/models.yaml" ∅.

Definition bare_world : world :=
  World ∅ (Some "/tmp") "/home/u/proj/config/models.yaml" ∅.

(** The exception [safe_load_file] raises on a source that exists but does
    not load (lines 44-45 and 87-88). *)
Definition load_error (src : source) : option exn :=
  match src with
  | Loads _ => None
  | Unreadable => Some OSError
  | NotUtf8 => Some UnicodeDecodeError
  | NotYaml => Some YAMLError
  end.

(** Environments for the odd shapes a configuration file can take. *)
Definition malformed_world : world :=
  World {[ "config/models.yaml" := NotYaml ]}
        (Some "/home/u/proj") "/home/u/proj/config/models.yaml" ∅.

Definition flat_config : gmap string pyval :=
  {[ "openai" := PStr "gpt-4o-mini"; "groq" := PDict ∅ ]}.

Definition flat_world : world :=
  World {[ "config/models.yaml" := Loads (PDict flat_config) ]}
        (Some "/home/u/proj") "/home/u/proj/config/models.yaml" ∅.

Definition scalar_world : world :=
  World {[ "config/models.yaml" := Loads (PStr "openai: gpt-4o") ]}
        (Some "/home/u/proj") "/home/u/proj/config/models.yaml" ∅.

Definition installed_world : world :=
  World {[ "/home/u/proj/config/models.yaml" := Loads demo_config ]}
        (Some "/tmp") "/home/u/proj/config/models.yaml" ∅.

Definition shadowing_world : world :=
  World {[ "config/models.yaml" := Loads demo_config;
           "/home/u/proj/config/models.yaml" := NotYaml ]}
        (Some "/srv") "/home/u/proj/config/models.yaml" ∅.

(** A file name of 256 characters, longer than a directory entry may be:
    [stat] on it fails with ENAMETOOLONG. *)
Definition long_name : string :=
  string_of_list_ascii (repeat "a"%char 256).

(** No file under the supplied name, which cannot be examined. *)
Definition long_name_world : world :=
  World ∅ (Some "/tmp") "/home/u/proj/config/models.yaml" {[ long_name ]}.

(** The same, with a well-formed configuration under the project root. *)
Definition long_name_installed_world : world :=
  World {[ "/home/u/proj/config/models.yaml" := Loads demo_config ]}
        (Some "/tmp") "/home/u/proj/config/models.yaml" {[ long_name ]}.

(** The working directory has been removed and no configuration exists. *)
Definition removed_cwd_world : world :=
  World ∅ None "/home/u/proj/config/models.yaml" ∅.

(** ** Strings *)

Lemma append_nil_l s : "" +:+ s = s.
Proof. reflexivity. Qed.

Lemma append_cons c a b : String c a +:+ b = String c (a +:+ b).
Proof. reflexivity. Qed.

Lemma append_nil_r s : s +:+ "" = s.
Proof. induction s as [|c s IH]; [done | by rewrite append_cons, IH]. Qed.

Lemma append_assoc a b c : (a +:+ b) +:+ c = a +:+ b +:+ c.
Proof. induction a as [|x a IH]; [done | by rewrite !append_cons, IH]. Qed.

Lemma startswith_spec x s : startswith x s = true ↔ ∃ b, s = x +:+ b.
Proof.
  revert s. induction x as [|a x IH]; intros s; simpl.
  - split; [eauto | done].
  - destruct s as [|b s].
    + split; [done | intros [? ?]; discriminate].
    + setoid_rewrite append_cons.
      destruct (Ascii.eqb_spec a b) as [->|Hne].
      * rewrite IH. split; intros [t Ht]; exists t; congruence.
      * split; [done | intros [t Ht]; congruence].
Qed.

Lemma str_in_spec x s : str_in x s = true ↔ substring_of x s.
Proof.
  unfold substring_of. induction s as [|c s IH]; simpl.
  - rewrite orb_false_r, startswith_spec. split.
    + intros [b Hb]. by exists "", b.
    + intros ([|? ?] & b & Hab); [eauto | discriminate].
  - rewrite orb_true_iff, startswith_spec, IH. split.
    + intros [[b Hb]|(a & b & Hab)].
      * by exists "", b.
      * exists (String c a), b. by rewrite append_cons, Hab.
    + intros ([|c' a] & b & Hab).
      * left. eauto.
      * right. exists a, b. rewrite append_cons in Hab. congruence.
Qed.

Lemma any_in_spec kws s : any_in kws s = true ↔ contains_any kws s.
Proof.
  unfold any_in, contains_any. rewrite existsb_exists.
  split; intros (k & Hk & Hin); exists k.
  - by rewrite list_elem_of_In, <- str_in_spec.
  - by rewrite <- list_elem_of_In, str_in_spec.
Qed.

Lemma any_in_false kws s : any_in kws s = false ↔ ¬ contains_any kws s.
Proof. rewrite <- any_in_spec. by destruct (any_in kws s). Qed.

Lemma substring_of_app_r x a b : substring_of x b → substring_of x (a +:+ b).
Proof. intros (p & q & ->). exists (a +:+ p), q. by rewrite append_assoc. Qed.

Lemma substring_of_here x b : substring_of x (x +:+ b).
Proof. by exists "", b. Qed.

Lemma substring_of_refl x : substring_of x x.
Proof. exists "", "". by rewrite append_nil_l, append_nil_r. Qed.

(** ** Running computations *)

Lemma bind_run {A B} (c : io A) (k : A → io B) w :
  (c ≫= k) w =
  match c w with
  | (Ok a, w') => k a w'
  | (Raise e, w') => (Raise e, w')
  end.
Proof. reflexivity. Qed.

Lemma path_exists_some w p src :
  files w !! p = Some src → path_exists p w = (Ok true, w).
Proof. intros H. unfold path_exists. by rewrite H. Qed.

Lemma path_exists_absent w p :
  absent w p → path_exists p w = (Ok false, w).
Proof.
  intros [Hp Hstat]. unfold path_exists. rewrite Hp.
  by rewrite bool_decide_eq_false_2.
Qed.

Lemma safe_load_file_loads w p v :
  files w !! p = Some (Loads v) → safe_load_file p w = (Ok v, w).
Proof. intros H. unfold safe_load_file. by rewrite H. Qed.

Lemma search_found w config_path p src :
  search w config_path = Found p src → files w !! p = Some src.
Proof.
  unfold search. intros H. repeat case_match; by simplify_eq.
Qed.

Lemma search_missing w config_path :
  search w config_path = Missing ↔
  absent w config_path ∧ absent w (fallback_config w).
Proof.
  unfold search, absent. split.
  - intros H. repeat case_match; simplify_eq.
    by repeat match goal with
              | H : bool_decide _ = false |- _ => apply bool_decide_eq_false in H
              end.
  - intros [[-> H1] [-> H2]]. by rewrite !bool_decide_eq_false_2.
Qed.

Lemma located_search w config_path src :
  located w config_path = Some src ↔ ∃ p, search w config_path = Found p src.
Proof.
  unfold located. split.
  - intros H. case_match; simplify_eq. eauto.
  - by intros [p ->].
Qed.

Lemma located_supplied w config_path src :
  files w !! config_path = Some src → located w config_path = Some src.
Proof. intros H. unfold located, search. by rewrite H. Qed.

(** The search shared by the two functions (lines 23-32 and 73-80),
    followed by what each does with a path that exists and with a path
    that does not. *)
Lemma search_run {A} (missing found : string → io A) w config_path :
  (config_file ← candidate config_path;
   exists_now ← path_exists config_file;
   if negb exists_now then missing config_file else found config_file) w =
  match search w config_path with
  | Found p _ => found p w
  | Missing => missing (fallback_config w) w
  | StatFails => (Raise OSError, w)
  end.
Proof.
  unfold candidate, search. rewrite !bind_run. unfold path_exists at 1.
  destruct (files w !! config_path) as [src|] eqn:Hp; simpl.
  { rewrite bind_run, (path_exists_some _ _ src); done. }
  destruct (bool_decide (config_path ∈ unstatable w)); simpl; [done |].
  unfold project_config. rewrite bind_run. unfold path_exists.
  destruct (files w !! fallback_config w) as [src|]; simpl; [done |].
  by destruct (bool_decide (fallback_config w ∈ unstatable w)).
Qed.

Lemma pick_model_missing w provider technique tier config_path :
  search w config_path = Missing →
  pick_model provider technique tier config_path w =
  (match cwd w with
   | Some here =>
       Raise (FileNotFoundError
                (not_found_message config_path (fallback_config w) here))
   | None => Raise (FileNotFoundError cwd_gone_message)
   end, w).
Proof.
  intros Hs. unfold pick_model. rewrite search_run, Hs, bind_run.
  unfold getcwd. by destruct (cwd w).
Qed.

Lemma pick_model_stat_fails w provider technique tier config_path :
  search w config_path = StatFails →
  pick_model provider technique tier config_path w = (Raise OSError, w).
Proof. intros Hs. unfold pick_model. by rewrite search_run, Hs. Qed.

(** Once a source is found and loads, the call goes on with the loaded
    value. *)
Lemma pick_model_loaded w provider technique tier config_path config :
  located w config_path = Some (Loads config) →
  pick_model provider technique tier config_path w =
  (known ← lift (py_in provider config);
   if negb known then
     raise (KeyError (provider_message provider config_path))
   else
     entry ← lift (py_getitem config provider);
     present ← lift (py_in (resolved_tier tier technique) entry);
     entry' ← lift (py_getitem config provider);
     lift (py_getitem entry'
             (if negb present then "general" else resolved_tier tier technique))) w.
Proof.
  intros [p Hs]%located_search. pose proof (search_found _ _ _ _ Hs) as Hp.
  unfold pick_model. rewrite search_run, Hs.
  rewrite bind_run, (safe_load_file_loads _ _ _ Hp). reflexivity.
Qed.

Lemma pick_model_mapping w provider technique tier config_path d m :
  located w config_path = Some (Loads (PDict d)) →
  d !! provider = Some (PDict m) →
  pick_model provider technique tier config_path w =
  (match m !! resolved_tier tier technique with
   | Some v => Ok v
   | None =>
       match m !! "general" with
       | Some v => Ok v
       | None => Raise (KeyError "general")
       end
   end, w).
Proof.
  intros Hloc Hd. rewrite (pick_model_loaded _ _ _ _ _ _ Hloc).
  unfold mbind, io_bind, lift, py_in, py_getitem. rewrite Hd. simpl.
  destruct (m !! resolved_tier tier technique) as [v|] eqn:Ht; simpl.
  - by rewrite Ht.
  - done.
Qed.

Lemma list_available_models_run w config_path :
  list_available_models config_path w =
  (match search w config_path with
   | Found _ (Loads v) => Ok v
   | Found _ Unreadable => Raise OSError
   | Found _ NotUtf8 => Raise UnicodeDecodeError
   | Found _ NotYaml => Raise YAMLError
   | Missing => Ok (PDict ∅)
   | StatFails => Raise OSError
   end, w).
Proof.
  unfold list_available_models. rewrite search_run.
  destruct (search w config_path) as [p src| |] eqn:Hs; try done.
  unfold safe_load_file. rewrite (search_found _ _ _ _ Hs). by destruct src.
Qed.

Lemma list_available_models_located w config_path src :
  located w config_path = Some src →
  list_available_models config_path w =
  (match src with
   | Loads v => Ok v
   | Unreadable => Raise OSError
   | NotUtf8 => Raise UnicodeDecodeError
   | NotYaml => Raise YAMLError
   end, w).
Proof.
  intros [p Hs]%located_search. by rewrite list_available_models_run, Hs.
Qed.

(** ** Computations that only read the environment *)

Lemma readonly_ret {A} (a : A) : readonly (mret a).
Proof. by intros w. Qed.

Lemma readonly_raise {A} e : readonly (raise (A:=A) e).
Proof. by intros w. Qed.

Lemma readonly_lift {A} (r : result A) : readonly (lift r).
Proof. by intros w. Qed.

Lemma readonly_bind {A B} (c : io A) (k : A → io B) :
  readonly c → (∀ a, readonly (k a)) → readonly (c ≫= k).
Proof.
  intros Hc Hk w. rewrite bind_run. specialize (Hc w).
  destruct (c w) as [[a|e] w']; simpl in Hc; subst w'; [apply Hk | done].
Qed.

Lemma readonly_path_exists p : readonly (path_exists p).
Proof. by intros w. Qed.

Lemma readonly_getcwd : readonly getcwd.
Proof. by intros w. Qed.

Lemma readonly_project_config : readonly project_config.
Proof. by intros w. Qed.

Lemma readonly_safe_load_file p : readonly (safe_load_file p).
Proof. intros w. unfold safe_load_file. by repeat case_match. Qed.

Lemma readonly_if {A} (b : bool) (c1 c2 : io A) :
  readonly c1 → readonly c2 → readonly (if b then c1 else c2).
Proof. by destruct b. Qed.

Create HintDb readonly.

#[local] Hint Resolve readonly_ret readonly_raise readonly_lift
  readonly_path_exists readonly_getcwd readonly_project_config
  readonly_safe_load_file : readonly.

Ltac readonly_steps :=
  repeat first
    [ apply readonly_bind; [| intros ?]
    | apply readonly_if
    | solve [ auto with readonly ] ].

Lemma readonly_candidate config_path : readonly (candidate config_path).
Proof. unfold candidate. readonly_steps. Qed.

Lemma readonly_pick_model provider technique tier config_path :
  readonly (pick_model provider technique tier config_path).
Proof.
  unfold pick_model.
  apply readonly_bind; [apply readonly_candidate | intros ?].
  readonly_steps.
Qed.

(** ** Tier inference *)

Lemma infer_tier_keyword technique :
  keyword_tier (lower technique) (infer_tier technique).
Proof.
  unfold infer_tier, keyword_tier. cbv zeta.
  fold reason_keywords strong_keywords.
  destruct (any_in reason_keywords (lower technique)) eqn:Hr.
  - left. split; [by apply any_in_spec | done].
  - right. apply any_in_false in Hr.
    destruct (any_in strong_keywords (lower technique)) eqn:Hs.
    + left. split; [done | split; [by apply any_in_spec | done]].
    + right. split; [done | split; [by apply any_in_false | done]].
Qed.

Lemma keyword_tier_functional t tier1 tier2 :
  keyword_tier t tier1 → keyword_tier t tier2 → tier1 = tier2.
Proof. unfold keyword_tier. intuition congruence. Qed.

(** ** Properties of [pick_model] *)

(** C1. A call without an explicit tier, for a provider that is a key of
    the loaded configuration, uses the tier that the keyword rules give for
    the lower-cased technique (reasoning keywords first, then the strong
    ones, else "general"): it behaves as the call with that tier given
    explicitly, and returns the provider's entry for that tier when there
    is one. *)
Theorem pick_model_infers_tier w provider technique config_path d entry :
  located w config_path = Some (Loads (PDict d)) →
  d !! provider = Some entry →
  ∃ tier,
    keyword_tier (lower technique) tier ∧
    pick_model provider technique None config_path w =
      pick_model provider technique (Some tier) config_path w ∧
    ∀ m v, entry = PDict m → m !! tier = Some v →
      pick_model provider technique None config_path w = (Ok v, w).
Proof.
  intros Hloc Hd. exists (infer_tier technique).
  split; [apply infer_tier_keyword | split; [done |]].
  intros m v -> Hv.
  rewrite (pick_model_mapping _ _ _ _ _ _ _ Hloc Hd). simpl. by rewrite Hv.
Qed.

Lemma pick_model_infers_tier_witness :
  located demo_world "config/models.yaml" = Some (Loads (PDict demo_providers)) ∧
  demo_providers !! "openai" = Some (PDict demo_openai) ∧
  pick_model "openai" "CoT-Prompting" None "config/models.yaml" demo_world =
    (Ok (PStr "o3-mini"), demo_world).
Proof.
  split; [reflexivity | split; [reflexivity |]].
  destruct (pick_model_infers_tier demo_world "openai" "CoT-Prompting"
              "config/models.yaml" demo_providers (PDict demo_openai)
              eq_refl eq_refl) as (tier & Htier & _ & Hret).
  assert (keyword_tier (lower "CoT-Prompting") "reason") as Hreason.
  { left. split; [apply any_in_spec; reflexivity | reflexivity]. }
  rewrite (keyword_tier_functional _ _ _ Htier Hreason) in Hret.
  apply (Hret demo_openai); reflexivity.
Defined.

(** C2. When the provider is a key of the loaded configuration and the
    resolved tier, explicit or inferred, is not a key of the provider's
    mapping while "general" is, the call succeeds and returns the
    provider's "general" entry. *)
Theorem pick_model_falls_back_to_general
    w provider technique tier config_path d m v :
  located w config_path = Some (Loads (PDict d)) →
  d !! provider = Some (PDict m) →
  m !! resolved_tier tier technique = None →
  m !! "general" = Some v →
  pick_model provider technique tier config_path w = (Ok v, w).
Proof.
  intros Hloc Hd Htier Hgen.
  by rewrite (pick_model_mapping _ _ _ _ _ _ _ Hloc Hd), Htier, Hgen.
Qed.

Lemma pick_model_falls_back_to_general_witness :
  pick_model "groq" "CoT-Prompting" None "config/models.yaml" demo_world =
    (Ok (PStr "llama-3.1-8b-instant"), demo_world) ∧
  pick_model "groq" "zero-shot" (Some "strong") "config/models.yaml" demo_world =
    (Ok (PStr "llama-3.1-8b-instant"), demo_world).
Proof.
  split.
  - apply (pick_model_falls_back_to_general demo_world "groq" "CoT-Prompting"
             None "config/models.yaml" demo_providers demo_groq); reflexivity.
  - apply (pick_model_falls_back_to_general demo_world "groq" "zero-shot"
             (Some "strong") "config/models.yaml" demo_providers demo_groq);
      reflexivity.
Defined.

(** C3. With an explicit tier the technique is never consulted: two calls
    that differ only in the technique give the same outcome, whatever
    keywords the techniques contain. *)
Theorem pick_model_explicit_tier_ignores_technique
    w provider technique1 technique2 tier config_path :
  pick_model provider technique1 (Some tier) config_path w =
  pick_model provider technique2 (Some tier) config_path w.
Proof. reflexivity. Qed.

(** An explicit "general" wins over a technique whose keywords say
    "reason". *)
Example pick_model_explicit_tier_contradicts_keywords :
  infer_tier "chain-of-thought reasoning" = "reason" ∧
  pick_model "openai" "chain-of-thought reasoning" (Some "general")
    "config/models.yaml" demo_world = (Ok (PStr "gpt-4o-mini"), demo_world) ∧
  pick_model "openai" "chain-of-thought reasoning" None
    "config/models.yaml" demo_world = (Ok (PStr "o3-mini"), demo_world).
Proof. repeat split; reflexivity. Qed.

Lemma not_found_message_mentions config_path config_file here :
  let msg := not_found_message config_path config_file here in
  substring_of config_path msg ∧ substring_of config_file msg ∧
  substring_of here msg.
Proof.
  unfold not_found_message. repeat split.
  - do 3 apply substring_of_app_r. apply substring_of_here.
  - do 6 apply substring_of_app_r. apply substring_of_here.
  - do 9 apply substring_of_app_r. apply substring_of_refl.
Qed.

Lemma pick_model_unknown_provider w provider technique tier config_path d :
  located w config_path = Some (Loads (PDict d)) →
  d !! provider = None →
  pick_model provider technique tier config_path w =
  (Raise (KeyError (provider_message provider config_path)), w).
Proof.
  intros Hloc Hd. rewrite (pick_model_loaded _ _ _ _ _ _ Hloc).
  unfold mbind, io_bind, lift, py_in. by rewrite Hd.
Qed.

Lemma well_formed_lookup d provider e :
  well_formed (PDict d) = true →
  d !! provider = Some e →
  ∃ m, e = PDict m ∧ is_Some (m !! "general") ∧
       ∀ t v, m !! t = Some v → ∃ s, v = PStr s.
Proof.
  intros Hwf He. apply bool_decide_eq_true in Hwf.
  specialize (Hwf provider e He). simpl in Hwf.
  destruct e as [| | | |l|m]; try discriminate.
  apply andb_true_iff in Hwf as [Hgen Hstr].
  apply bool_decide_eq_true in Hgen, Hstr.
  exists m. split; [done | split; [done |]].
  intros t v Hv. specialize (Hstr t v Hv). simpl in Hstr.
  destruct v; try discriminate. eauto.
Qed.

(** C4, as amended.  [pick_model] has two failure modes of its own, raised
    as different exception classes.  When [Path.exists] reports both the
    supplied path and the fallback absent and the working directory can be
    read, it raises [FileNotFoundError] with a message that contains the
    supplied path, the fallback path and the working directory.  When the
    configuration loads as a mapping without the provider it raises
    [KeyError] with the provider-not-found message.  Once a well-formed
    configuration is located, a call returns a model identifier or fails
    in the second way; and where both existence tests answer, the working
    directory can be read and whatever is located is a well-formed
    configuration, these two are the only failures. *)
Theorem pick_model_failure_modes w provider technique tier config_path :
  let call := pick_model provider technique tier config_path w in
  (∀ here,
     absent w config_path → absent w (fallback_config w) →
     cwd w = Some here →
     ∃ msg, call = (Raise (FileNotFoundError msg), w) ∧
            substring_of config_path msg ∧
            substring_of (fallback_config w) msg ∧
            substring_of here msg) ∧
  (∀ d, located w config_path = Some (Loads (PDict d)) →
        d !! provider = None →
        call = (Raise (KeyError (provider_message provider config_path)), w)) ∧
  (∀ msg arg, FileNotFoundError msg ≠ KeyError arg ∧
              kind_of (FileNotFoundError msg) ≠ kind_of (KeyError arg)) ∧
  (∀ config, located w config_path = Some (Loads config) →
             well_formed config = true →
             (∃ s, call = (Ok (PStr s), w)) ∨
             call = (Raise (KeyError (provider_message provider config_path)), w)) ∧
  (config_path ∉ unstatable w → fallback_config w ∉ unstatable w →
   is_Some (cwd w) →
   (∀ src, located w config_path = Some src →
           ∃ config, src = Loads config ∧ well_formed config = true) →
   (∃ s, call = (Ok (PStr s), w)) ∨
   call = (Raise (FileNotFoundError
                    (not_found_message config_path (fallback_config w)
                       (default "" (cwd w)))), w) ∨
   call = (Raise (KeyError (provider_message provider config_path)), w)).
Proof.
  cbv zeta.
  assert (∀ config, located w config_path = Some (Loads config) →
            well_formed config = true →
            (∃ s, pick_model provider technique tier config_path w =
                    (Ok (PStr s), w)) ∨
            pick_model provider technique tier config_path w =
              (Raise (KeyError (provider_message provider config_path)), w))
    as Hwf.
  { intros config Hloc Hwf.
    destruct config as [| | | |l|d]; try discriminate.
    destruct (d !! provider) as [e|] eqn:Hd.
    + left. destruct (well_formed_lookup _ _ _ Hwf Hd) as (m & -> & [g Hg] & Hstr).
      rewrite (pick_model_mapping _ _ _ _ _ _ _ Hloc Hd).
      destruct (m !! resolved_tier tier technique) as [v|] eqn:Ht.
      * destruct (Hstr _ _ Ht) as [s ->]. eauto.
      * rewrite Hg. destruct (Hstr _ _ Hg) as [s ->]. eauto.
    + right. by apply (pick_model_unknown_provider _ _ _ _ _ d). }
  split; [|split; [|split; [|split]]].
  - intros here Hp Hf Hcwd. eexists. split.
    + rewrite pick_model_missing by by apply search_missing.
      by rewrite Hcwd.
    + apply not_found_message_mentions.
  - intros d. apply pick_model_unknown_provider.
  - done.
  - done.
  - intros Hp Hf [here Hcwd] Hsrc.
    destruct (search w config_path) as [p src| |] eqn:Hs.
    + assert (located w config_path = Some src) as Hloc
        by (apply located_search; eauto).
      destruct (Hsrc _ Hloc) as (config & -> & Hconfig).
      destruct (Hwf _ Hloc Hconfig) as [?|?]; auto.
    + right. left. rewrite (pick_model_missing _ _ _ _ _ Hs). by rewrite Hcwd.
    + exfalso. unfold search in Hs.
      repeat case_match; simplify_eq;
        repeat match goal with
               | H : bool_decide _ = true |- _ => apply bool_decide_eq_true in H
               end; done.
Qed.

Lemma pick_model_failure_modes_witness :
  (∃ msg, pick_model "openai" "cot" None "nope.yaml" bare_world =
            (Raise (FileNotFoundError msg), bare_world) ∧
          substring_of "nope.yaml" msg ∧
          substring_of "/home/u/proj/config/models.yaml" msg ∧
          substring_of "/tmp" msg) ∧
  pick_model "anthropic" "cot" None "config/models.yaml" demo_world =
    (Raise (KeyError "Provider 'anthropic' not found in config/models.yaml"),
     demo_world) ∧
  ((∃ s, pick_model "openai" "cot" None "config/models.yaml" demo_world =
           (Ok (PStr s), demo_world)) ∨
   pick_model "openai" "cot" None "config/models.yaml" demo_world =
     (Raise (KeyError "Provider 'openai' not found in config/models.yaml"),
      demo_world)).
Proof.
  split; [|split].
  - apply (proj1 (pick_model_failure_modes bare_world "openai" "cot" None
                    "nope.yaml") "/tmp").
    + split; [reflexivity | apply not_elem_of_empty].
    + split; [reflexivity | apply not_elem_of_empty].
    + reflexivity.
  - apply (proj1 (proj2 (pick_model_failure_modes demo_world "anthropic" "cot"
                           None "config/models.yaml")) demo_providers);
      reflexivity.
  - apply (proj1 (proj2 (proj2 (proj2 (pick_model_failure_modes demo_world
                                         "openai" "cot" None
                                         "config/models.yaml"))))
             demo_config); reflexivity.
Defined.

(** C4, as first stated, fails in three ways.  A supplied name that
    cannot be examined makes the first existence test raise [OSError]
    although neither path exists; the same happens with a well-formed
    configuration under the project root, a third failure mode; and with
    the working directory removed the [FileNotFoundError] comes from
    [Path.cwd] and names neither attempted path. *)
Lemma pick_model_failure_modes_counterexample :
  (files long_name_world !! long_name = None ∧
   files long_name_world !! fallback_config long_name_world = None ∧
   pick_model "openai" "cot" None long_name long_name_world =
     (Raise OSError, long_name_world) ∧
   ¬ ∃ msg, pick_model "openai" "cot" None long_name long_name_world =
              (Raise (FileNotFoundError msg), long_name_world)) ∧
  (files long_name_installed_world !! fallback_config long_name_installed_world
     = Some (Loads demo_config) ∧
   well_formed demo_config = true ∧
   pick_model "openai" "cot" None long_name long_name_installed_world =
     (Raise OSError, long_name_installed_world)) ∧
  (files removed_cwd_world !! "config/models.yaml" = None ∧
   files removed_cwd_world !! fallback_config removed_cwd_world = None ∧
   pick_model "openai" "cot" None "config/models.yaml" removed_cwd_world =
     (Raise (FileNotFoundError cwd_gone_message), removed_cwd_world) ∧
   str_in "config/models.yaml" cwd_gone_message = false).
Proof. repeat split; try reflexivity. by intros [msg Hmsg]. Qed.

(** ** Context windows *)

Lemma first_match_scan s rules n :
  first_match s rules n ↔ scan_rules rules s = n.
Proof.
  split.
  - induction 1 as [|pats cap rest Hin|pats cap rest n Hout _ IH]; simpl.
    + done.
    + apply any_in_spec in Hin. by rewrite Hin.
    + apply any_in_false in Hout. by rewrite Hout.
  - intros <-. induction rules as [|[pats cap] rest IH]; simpl.
    + constructor.
    + destruct (any_in pats s) eqn:Hany.
      * apply fm_here. by apply any_in_spec.
      * apply fm_later; [by apply any_in_false | done].
Qed.

Lemma get_context_window_scan model :
  get_context_window model = scan_rules context_rules (lower model).
Proof.
  unfold get_context_window, context_rules, any_in. simpl.
  by rewrite !orb_false_r.
Qed.

(** C5. [get_context_window] is a total function of the model string: its
    value is exactly the capacity of the first row of the ordered rule
    table with a pattern occurring in the lower-cased identifier, and 8000
    when no row has one.  In particular "gpt-4o-mini" gives 128000,
    "gemini-1.5-pro" gives 1000000 and "claude-3" gives 8000. *)
Theorem get_context_window_first_match :
  (∀ model n,
     first_match (lower model) context_rules n ↔ get_context_window model = n) ∧
  (∀ model,
     (∀ pats cap, (pats, cap) ∈ context_rules →
                  ¬ contains_any pats (lower model)) →
     get_context_window model = 8000) ∧
  get_context_window "gpt-4o-mini" = 128000 ∧
  get_context_window "gemini-1.5-pro" = 1000000 ∧
  get_context_window "claude-3" = 8000.
Proof.
  split; [|split; [|by repeat split]].
  - intros model n. by rewrite get_context_window_scan, first_match_scan.
  - intros model Hnone. rewrite get_context_window_scan.
    induction context_rules as [|[pats cap] rest IH]; simpl; [done |].
    destruct (any_in pats (lower model)) eqn:Hany.
    + apply any_in_spec in Hany. exfalso.
      apply (Hnone pats cap); [apply list_elem_of_here | done].
    + apply IH. intros pats' cap' Hin. apply (Hnone pats' cap').
      by apply list_elem_of_further.
Qed.

(** Case does not matter, and earlier rows shadow later ones. *)
Example get_context_window_samples :
  get_context_window "GPT-4O-Mini" = 128000 ∧
  get_context_window "gemini-1.5-pro-o1" = 128000 ∧
  get_context_window "Llama-3.2-90b" = 131072 ∧
  get_context_window "" = 8000.
Proof. by repeat split. Qed.

(** ** Reasoning-model check *)

(** C6. With the auto-route flag off the answer is false for every
    technique.  With the flag on the answer is true exactly when the
    lower-cased technique is one of the configured keywords or contains
    one of them as a substring. *)
Theorem should_use_reasoning_model_spec (keywords : list string) technique :
  should_use_reasoning_model false keywords technique = false ∧
  (should_use_reasoning_model true keywords technique = true ↔
   lower technique ∈ keywords ∨ contains_any keywords (lower technique)).
Proof.
  split; [done |].
  unfold should_use_reasoning_model. simpl.
  destruct (existsb (String.eqb (lower technique)) keywords) eqn:Hexact.
  - split; [intros _ | done]. left.
    apply existsb_exists in Hexact as (k & Hk & Heq).
    apply String.eqb_eq in Heq as ->. by apply list_elem_of_In.
  - fold (any_in keywords (lower technique)). rewrite any_in_spec.
    split; [by right |]. intros [Hin|Hsub]; [|done].
    exists (lower technique). split; [done | apply substring_of_refl].
Qed.

Example should_use_reasoning_model_samples :
  should_use_reasoning_model true ["cot"; "tot"] "Zero-shot CoT" = true ∧
  should_use_reasoning_model true ["cot"; "tot"] "few-shot" = false ∧
  should_use_reasoning_model false ["cot"; "tot"] "cot" = false ∧
  should_use_reasoning_model true [] "cot" = false.
Proof. by repeat split. Qed.

(** ** Missing and empty configuration sources *)

(** C7, as amended.  When [Path.exists] reports both the supplied path
    and the fallback path absent, [list_available_models] does not raise:
    it returns the empty mapping. *)
Theorem list_available_models_missing w config_path :
  absent w config_path →
  absent w (fallback_config w) →
  list_available_models config_path w = (Ok (PDict ∅), w).
Proof.
  intros Hp Hf. rewrite list_available_models_run.
  by rewrite (proj2 (search_missing w config_path) (conj Hp Hf)).
Qed.

Lemma list_available_models_missing_witness :
  absent bare_world "config/models.yaml" ∧
  absent bare_world (fallback_config bare_world) ∧
  list_available_models "config/models.yaml" bare_world =
    (Ok (PDict ∅), bare_world).
Proof.
  assert (∀ p, absent bare_world p) as Habsent
    by (intros p; split; [reflexivity | apply not_elem_of_empty]).
  split; [apply Habsent | split; [apply Habsent |]].
  apply (list_available_models_missing bare_world "config/models.yaml");
    apply Habsent.
Defined.

(** C7, as first stated, fails: neither path exists, but the supplied name
    cannot be examined, and the existence test of line 75 raises
    [OSError]. *)
Lemma list_available_models_missing_counterexample :
  files long_name_world !! long_name = None ∧
  files long_name_world !! fallback_config long_name_world = None ∧
  list_available_models long_name long_name_world =
    (Raise OSError, long_name_world) ∧
  list_available_models long_name long_name_world ≠
    (Ok (PDict ∅), long_name_world).
Proof. repeat split; try reflexivity. by intros Hok. Qed.

(** C8. [pick_model] is deterministic and leaves the configuration source
    alone: the first call hands back the environment unchanged, and a
    second call with the same arguments, run after the first, has the same
    outcome. *)
Theorem pick_model_deterministic w provider technique tier config_path :
  let first := pick_model provider technique tier config_path w in
  let second := pick_model provider technique tier config_path first.2 in
  first.2 = w ∧ second.1 = first.1 ∧ second.2 = w.
Proof.
  cbv zeta.
  pose proof (readonly_pick_model provider technique tier config_path w) as Hw.
  by rewrite !Hw.
Qed.

(** C9. When the configuration source exists and parses to YAML null,
    [list_available_models] returns that null value, which is not a
    mapping. *)
Theorem list_available_models_null w config_path :
  located w config_path = Some (Loads PNone) →
  list_available_models config_path w = (Ok PNone, w) ∧
  is_mapping PNone = false.
Proof. intros Hloc. by rewrite (list_available_models_located _ _ _ Hloc). Qed.

Lemma list_available_models_null_witness :
  located empty_file_world "config/models.yaml" = Some (Loads PNone) ∧
  list_available_models "config/models.yaml" empty_file_world =
    (Ok PNone, empty_file_world) ∧
  is_mapping PNone = false.
Proof.
  split; [reflexivity |].
  apply (list_available_models_null empty_file_world "config/models.yaml").
  reflexivity.
Defined.

(** C10. When the configuration source exists and parses to YAML null,
    [pick_model] raises [TypeError] at the provider membership test, for
    every provider, technique and tier; [TypeError] is none of the error
    kinds of the design. *)
Theorem pick_model_null w provider technique tier config_path :
  located w config_path = Some (Loads PNone) →
  pick_model provider technique tier config_path w = (Raise TypeError, w) ∧
  py_in provider PNone = Raise TypeError ∧
  kind_of TypeError = None.
Proof.
  intros Hloc. by rewrite (pick_model_loaded _ _ _ _ _ _ Hloc).
Qed.

Lemma pick_model_null_witness :
  located empty_file_world "config/models.yaml" = Some (Loads PNone) ∧
  pick_model "openai" "cot" (Some "general") "config/models.yaml"
    empty_file_world = (Raise TypeError, empty_file_world).
Proof.
  split; [reflexivity |].
  apply (pick_model_null empty_file_world "openai" "cot" (Some "general")
           "config/models.yaml").
  reflexivity.
Defined.

(** ** Case folding *)

Lemma lower_char_idem c : lower_char (lower_char c) = lower_char c.
Proof. by destruct c as [[] [] [] [] [] [] [] []]. Qed.

Lemma lower_idem s : lower (lower s) = lower s.
Proof.
  induction s as [|c s IH]; simpl; [done |]. by rewrite lower_char_idem, IH.
Qed.

Lemma lower_app a b : lower (a +:+ b) = lower a +:+ lower b.
Proof.
  induction a as [|c a IH]; [done |].
  rewrite append_cons. simpl. by rewrite IH, append_cons.
Qed.

Lemma substring_of_lower x s :
  substring_of x s → substring_of (lower x) (lower s).
Proof.
  intros (a & b & ->). exists (lower a), (lower b). by rewrite !lower_app.
Qed.

Lemma contains_any_embed kws s a b :
  contains_any kws s → contains_any kws (a +:+ s +:+ b).
Proof.
  intros (k & Hk & p & q & ->). exists k. split; [done |].
  exists (a +:+ p), (q +:+ b). by rewrite !append_assoc.
Qed.

(** ** The shapes of a loaded configuration *)

Lemma pick_model_load_fails w provider technique tier config_path src e :
  located w config_path = Some src →
  load_error src = Some e →
  pick_model provider technique tier config_path w = (Raise e, w).
Proof.
  intros [p Hs]%located_search He.
  pose proof (search_found _ _ _ _ Hs) as Hp.
  unfold pick_model. rewrite search_run, Hs.
  rewrite bind_run. unfold safe_load_file. rewrite Hp.
  destruct src; simpl in He; by simplify_eq.
Qed.

Lemma pick_model_entry_other w provider technique tier config_path d entry :
  located w config_path = Some (Loads (PDict d)) →
  d !! provider = Some entry →
  is_mapping entry = false →
  pick_model provider technique tier config_path w = (Raise TypeError, w).
Proof.
  intros Hloc Hd Hentry. rewrite (pick_model_loaded _ _ _ _ _ _ Hloc).
  unfold mbind, io_bind, lift, py_in at 1, py_getitem at 1 2.
  rewrite Hd. simpl.
  destruct entry as [| | |s|l|m]; try done; simpl;
    by repeat case_match.
Qed.

Lemma pick_model_config_other w provider technique tier config_path config :
  located w config_path = Some (Loads config) →
  is_mapping config = false →
  pick_model provider technique tier config_path w =
  (match py_in provider config with
   | Ok false => Raise (KeyError (provider_message provider config_path))
   | _ => Raise TypeError
   end, w).
Proof.
  intros Hloc Hconfig. rewrite (pick_model_loaded _ _ _ _ _ _ Hloc).
  unfold mbind, io_bind, lift, raise.
  destruct config as [| | |s|l|d]; try done; simpl.
  - by destruct (str_in provider s).
  - by destruct (existsb _ l).
Qed.

(** A located source fixes the outcome: nothing else of the environment is
    consulted. *)
Lemma pick_model_found_outcome provider technique tier config_path src :
  ∃ r, ∀ w, located w config_path = Some src →
            pick_model provider technique tier config_path w = (r, w).
Proof.
  destruct (load_error src) as [e|] eqn:He.
  { exists (Raise e). intros w Hloc. by eapply pick_model_load_fails. }
  destruct src as [config| | |]; try done.
  destruct (is_mapping config) eqn:Hconfig.
  2: { eexists. intros w Hloc. by apply pick_model_config_other. }
  destruct config as [| | | | |d]; try done.
  destruct (d !! provider) as [entry|] eqn:Hd.
  2: { eexists. intros w Hloc. by eapply pick_model_unknown_provider. }
  destruct (is_mapping entry) eqn:Hentry.
  2: { eexists. intros w Hloc. by eapply pick_model_entry_other. }
  destruct entry as [| | | | |m]; try done.
  eexists. intros w Hloc. by eapply pick_model_mapping.
Qed.

Lemma pick_model_ok_inv w provider technique tier config_path v :
  (pick_model provider technique tier config_path w).1 = Ok v →
  ∃ d m,
    located w config_path = Some (Loads (PDict d)) ∧
    d !! provider = Some (PDict m) ∧
    (m !! resolved_tier tier technique = Some v ∨
     (m !! resolved_tier tier technique = None ∧ m !! "general" = Some v)).
Proof.
  intros Hok. destruct (search w config_path) as [p src| |] eqn:Hs.
  2: { rewrite (pick_model_missing _ _ _ _ _ Hs) in Hok.
       by destruct (cwd w). }
  2: { by rewrite (pick_model_stat_fails _ _ _ _ _ Hs) in Hok. }
  assert (located w config_path = Some src) as Hloc
    by (apply located_search; eauto).
  destruct (load_error src) as [e|] eqn:He.
  { by rewrite (pick_model_load_fails _ _ _ _ _ _ _ Hloc He) in Hok. }
  destruct src as [config| | |]; try done.
  destruct (is_mapping config) eqn:Hconfig.
  2: { rewrite (pick_model_config_other _ _ _ _ _ _ Hloc Hconfig) in Hok.
       simpl in Hok. by repeat case_match. }
  destruct config as [| | | | |d]; try done.
  destruct (d !! provider) as [entry|] eqn:Hd.
  2: { by rewrite (pick_model_unknown_provider _ _ _ _ _ _ Hloc Hd) in Hok. }
  destruct (is_mapping entry) eqn:Hentry.
  2: { by rewrite (pick_model_entry_other _ _ _ _ _ _ _ Hloc Hd Hentry) in Hok. }
  destruct entry as [| | | | |m]; try done.
  rewrite (pick_model_mapping _ _ _ _ _ _ _ Hloc Hd) in Hok. simpl in Hok.
  exists d, m. split; [done | split; [done |]].
  destruct (m !! resolved_tier tier technique) as [v'|]; [left; congruence |].
  right. destruct (m !! "general"); by simplify_eq.
Qed.

(** ** Further properties of [pick_model] *)

(** X1. [pick_model] returns [v] exactly when the located source loads as
    a mapping, the provider's entry in it is a mapping, and [v] is that
    mapping's entry for the resolved tier or, when the resolved tier is
    not a key, its entry for "general". *)
Theorem pick_model_returns_iff w provider technique tier config_path v :
  (pick_model provider technique tier config_path w).1 = Ok v ↔
  ∃ d m,
    located w config_path = Some (Loads (PDict d)) ∧
    d !! provider = Some (PDict m) ∧
    (m !! resolved_tier tier technique = Some v ∨
     (m !! resolved_tier tier technique = None ∧ m !! "general" = Some v)).
Proof.
  split; [apply pick_model_ok_inv |].
  intros (d & m & Hloc & Hd & Hv).
  rewrite (pick_model_mapping _ _ _ _ _ _ _ Hloc Hd). simpl.
  by destruct Hv as [->|[-> ->]].
Qed.

(** X2. When the provider's mapping has neither the resolved tier nor
    "general", the fallback lookup raises [KeyError] with the key
    "general". *)
Theorem pick_model_missing_general w provider technique tier config_path d m :
  located w config_path = Some (Loads (PDict d)) →
  d !! provider = Some (PDict m) →
  m !! resolved_tier tier technique = None →
  m !! "general" = None →
  pick_model provider technique tier config_path w =
    (Raise (KeyError "general"), w).
Proof.
  intros Hloc Hd Htier Hgen.
  by rewrite (pick_model_mapping _ _ _ _ _ _ _ Hloc Hd), Htier, Hgen.
Qed.

Lemma pick_model_missing_general_witness :
  pick_model "groq" "few-shot" (Some "strong") "config/models.yaml" flat_world =
    (Raise (KeyError "general"), flat_world).
Proof.
  apply (pick_model_missing_general flat_world "groq" "few-shot" (Some "strong")
           "config/models.yaml" flat_config ∅); reflexivity.
Defined.

(** X3. When the provider is a key of the configuration but its entry is
    not a mapping (a plain string, a list, a number, null), the call
    raises [TypeError], whatever the technique and the tier. *)
Theorem pick_model_entry_not_mapping
    w provider technique tier config_path d entry :
  located w config_path = Some (Loads (PDict d)) →
  d !! provider = Some entry →
  is_mapping entry = false →
  pick_model provider technique tier config_path w = (Raise TypeError, w).
Proof. apply pick_model_entry_other. Qed.

Lemma pick_model_entry_not_mapping_witness :
  pick_model "openai" "cot" None "config/models.yaml" flat_world =
    (Raise TypeError, flat_world).
Proof.
  apply (pick_model_entry_not_mapping flat_world "openai" "cot" None
           "config/models.yaml" flat_config (PStr "gpt-4o-mini"));
    reflexivity.
Defined.

(** X4. When the source loads to something that is not a mapping, the
    provider test is Python's [in] on that value: the call raises the
    provider-not-found [KeyError] when the test is false (the provider does
    not occur in the string, or is no element of the list), and
    [TypeError] when the test is true or the value supports no [in]. *)
Theorem pick_model_config_not_mapping
    w provider technique tier config_path config :
  located w config_path = Some (Loads config) →
  is_mapping config = false →
  pick_model provider technique tier config_path w =
  (match py_in provider config with
   | Ok false => Raise (KeyError (provider_message provider config_path))
   | _ => Raise TypeError
   end, w).
Proof. apply pick_model_config_other. Qed.

Lemma pick_model_config_not_mapping_witness :
  pick_model "openai" "cot" None "config/models.yaml" scalar_world =
    (Raise TypeError, scalar_world) ∧
  pick_model "google" "cot" None "config/models.yaml" scalar_world =
    (Raise (KeyError "Provider 'google' not found in config/models.yaml"),
     scalar_world).
Proof.
  split.
  - apply (pick_model_config_not_mapping scalar_world "openai" "cot" None
             "config/models.yaml" (PStr "openai: gpt-4o")); reflexivity.
  - apply (pick_model_config_not_mapping scalar_world "google" "cot" None
             "config/models.yaml" (PStr "openai: gpt-4o")); reflexivity.
Defined.

(** X5. A source that exists but cannot be opened, decoded or parsed makes
    both [pick_model] and [list_available_models] raise the loader's
    exception: neither function catches it, and the listing's softer
    handling covers a missing source only. *)
Theorem load_failure_propagates w provider technique tier config_path src e :
  located w config_path = Some src →
  load_error src = Some e →
  pick_model provider technique tier config_path w = (Raise e, w) ∧
  list_available_models config_path w = (Raise e, w).
Proof.
  intros Hloc He. split; [by eapply pick_model_load_fails |].
  rewrite (list_available_models_located _ _ _ Hloc).
  destruct src; simpl in He; by simplify_eq.
Qed.

Lemma load_failure_propagates_witness :
  pick_model "openai" "cot" None "config/models.yaml" malformed_world =
    (Raise YAMLError, malformed_world) ∧
  list_available_models "config/models.yaml" malformed_world =
    (Raise YAMLError, malformed_world).
Proof.
  apply (load_failure_propagates malformed_world "openai" "cot" None
           "config/models.yaml" NotYaml YAMLError); reflexivity.
Defined.

(** X6. A supplied path that exists is the only thing consulted: two
    environments that hold the same source at that path give the same
    outcome, whatever their fallback location, its contents and the
    working directory. *)
Theorem supplied_path_shadows_fallback
    w1 w2 provider technique tier config_path src :
  files w1 !! config_path = Some src →
  files w2 !! config_path = Some src →
  (pick_model provider technique tier config_path w1).1 =
    (pick_model provider technique tier config_path w2).1 ∧
  (list_available_models config_path w1).1 =
    (list_available_models config_path w2).1.
Proof.
  intros H1 H2.
  pose proof (located_supplied _ _ _ H1) as Hloc1.
  pose proof (located_supplied _ _ _ H2) as Hloc2.
  split.
  - destruct (pick_model_found_outcome provider technique tier config_path src)
      as [r Hr].
    by rewrite (Hr w1 Hloc1), (Hr w2 Hloc2).
  - by rewrite (list_available_models_located _ _ _ Hloc1),
         (list_available_models_located _ _ _ Hloc2).
Qed.

Lemma supplied_path_shadows_fallback_witness :
  (pick_model "openai" "cot" None "config/models.yaml" demo_world).1 =
    (pick_model "openai" "cot" None "config/models.yaml" shadowing_world).1 ∧
  (list_available_models "config/models.yaml" demo_world).1 =
    (list_available_models "config/models.yaml" shadowing_world).1.
Proof.
  apply (supplied_path_shadows_fallback demo_world shadowing_world "openai"
           "cot" None "config/models.yaml" (Loads demo_config)); reflexivity.
Defined.

(** X7. When [Path.exists] reports the supplied path absent, listing
    through it is the same as listing through the fallback path itself. *)
Theorem list_available_models_uses_fallback w config_path :
  absent w config_path →
  list_available_models config_path w =
    list_available_models (fallback_config w) w.
Proof.
  intros [Hp Hstat]. rewrite !list_available_models_run. unfold search.
  rewrite Hp, (bool_decide_eq_false_2 _ Hstat).
  destruct (files w !! fallback_config w) as [src|]; [done |].
  by destruct (bool_decide (fallback_config w ∈ unstatable w)).
Qed.

Lemma list_available_models_uses_fallback_witness :
  absent installed_world "config/models.yaml" ∧
  list_available_models "config/models.yaml" installed_world =
    (Ok demo_config, installed_world) ∧
  list_available_models "config/models.yaml" installed_world =
    list_available_models "/home/u/proj/config/models.yaml" installed_world.
Proof.
  assert (absent installed_world "config/models.yaml") as Habsent
    by (split; [reflexivity | apply not_elem_of_empty]).
  split; [done | split; [reflexivity |]].
  apply (list_available_models_uses_fallback installed_world
           "config/models.yaml" Habsent).
Defined.

(** X8. [list_available_models] returns [v] exactly when a source is
    located and loads to [v], or when [Path.exists] reports both paths
    absent and [v] is the empty mapping; an empty result therefore does
    not tell a missing file from a file that holds an empty mapping. *)
Theorem list_available_models_returns_iff w config_path v :
  (list_available_models config_path w).1 = Ok v ↔
  located w config_path = Some (Loads v) ∨
  (absent w config_path ∧ absent w (fallback_config w) ∧ v = PDict ∅).
Proof.
  rewrite list_available_models_run, located_search. simpl. split.
  - intros Hok. destruct (search w config_path) as [p src| |] eqn:Hs.
    + left. exists p. destruct src; by simplify_eq.
    + right. apply search_missing in Hs as [Hp Hf]. by simplify_eq.
    + done.
  - intros [[p ->]|(Hp & Hf & ->)]; [done |].
    by rewrite (proj2 (search_missing w config_path) (conj Hp Hf)).
Qed.

(** X9. Every model that [pick_model] returns is an entry of the listing:
    [list_available_models] on the same path gives a mapping whose entry
    for the provider is a mapping that holds the returned value under the
    resolved tier or under "general". *)
Theorem pick_model_result_is_listed w provider technique tier config_path v :
  (pick_model provider technique tier config_path w).1 = Ok v →
  ∃ d m t,
    list_available_models config_path w = (Ok (PDict d), w) ∧
    d !! provider = Some (PDict m) ∧
    m !! t = Some v ∧
    (t = resolved_tier tier technique ∨ t = "general").
Proof.
  intros Hok.
  destruct (pick_model_ok_inv _ _ _ _ _ _ Hok) as (d & m & Hloc & Hd & Hv).
  rewrite (list_available_models_located _ _ _ Hloc).
  destruct Hv as [Hv|[_ Hv]]; eauto 10.
Qed.

Lemma pick_model_result_is_listed_witness :
  ∃ d m t,
    list_available_models "config/models.yaml" demo_world =
      (Ok (PDict d), demo_world) ∧
    d !! "groq" = Some (PDict m) ∧
    m !! t = Some (PStr "llama-3.1-8b-instant") ∧
    (t = resolved_tier None "CoT" ∨ t = "general").
Proof.
  apply (pick_model_result_is_listed demo_world "groq" "CoT" None
           "config/models.yaml" (PStr "llama-3.1-8b-instant")).
  reflexivity.
Defined.

(** X10. The exceptions [pick_model] can raise, each with its cause:
    [OSError] when an existence test fails; when both paths are reported
    absent, [FileNotFoundError] with the three-line message, or the one of
    [Path.cwd] when the working directory is gone; the loader's exception
    when the source does not load; and, once a value is loaded, only
    [TypeError], the provider-not-found [KeyError] and [KeyError] with
    the key "general". *)
Theorem pick_model_raises_only w provider technique tier config_path e :
  (pick_model provider technique tier config_path w).1 = Raise e →
  (search w config_path = StatFails ∧ e = OSError) ∨
  (absent w config_path ∧ absent w (fallback_config w) ∧
   e = FileNotFoundError
         (match cwd w with
          | Some here =>
              not_found_message config_path (fallback_config w) here
          | None => cwd_gone_message
          end)) ∨
  (∃ src, located w config_path = Some src ∧ load_error src = Some e) ∨
  (∃ config, located w config_path = Some (Loads config) ∧
     (e = TypeError ∨
      e = KeyError (provider_message provider config_path) ∨
      e = KeyError "general")).
Proof.
  intros Hraise. destruct (search w config_path) as [p src| |] eqn:Hs.
  2: { right. left. rewrite (pick_model_missing _ _ _ _ _ Hs) in Hraise.
       apply search_missing in Hs as [Hp Hf]. simpl in Hraise.
       split; [done | split; [done |]]. destruct (cwd w); congruence. }
  2: { left. rewrite (pick_model_stat_fails _ _ _ _ _ Hs) in Hraise.
       simpl in Hraise. split; congruence. }
  assert (located w config_path = Some src) as Hloc
    by (apply located_search; eauto).
  right. right. destruct (load_error src) as [e'|] eqn:He.
  { left. rewrite (pick_model_load_fails _ _ _ _ _ _ _ Hloc He) in Hraise.
    simpl in Hraise. exists src. split; congruence. }
  right. destruct src as [config| | |]; try done.
  exists config. split; [done |].
  destruct (is_mapping config) eqn:Hconfig.
  2: { rewrite (pick_model_config_other _ _ _ _ _ _ Hloc Hconfig) in Hraise.
       simpl in Hraise. repeat case_match; simplify_eq; auto. }
  destruct config as [| | | | |d]; try done.
  destruct (d !! provider) as [entry|] eqn:Hd.
  2: { rewrite (pick_model_unknown_provider _ _ _ _ _ _ Hloc Hd) in Hraise.
       simpl in Hraise. simplify_eq. auto. }
  destruct (is_mapping entry) eqn:Hentry.
  2: { rewrite (pick_model_entry_other _ _ _ _ _ _ _ Hloc Hd Hentry) in Hraise.
       simpl in Hraise. simplify_eq. auto. }
  destruct entry as [| | | | |m]; try done.
  rewrite (pick_model_mapping _ _ _ _ _ _ _ Hloc Hd) in Hraise.
  simpl in Hraise. repeat case_match; simplify_eq; auto.
Qed.

Lemma pick_model_raises_only_witness :
  (pick_model "groq" "cot" (Some "reason") "config/models.yaml" flat_world).1 =
    Raise (KeyError "general") ∧
  ∃ config, located flat_world "config/models.yaml" = Some (Loads config).
Proof.
  split; [reflexivity |].
  destruct (pick_model_raises_only flat_world "groq" "cot" (Some "reason")
              "config/models.yaml" (KeyError "general") eq_refl)
    as [[_ Herr]|[(_ & _ & Herr)|[(src & _ & Herr)|(config & Hloc & _)]]].
  - discriminate Herr.
  - discriminate Herr.
  - destruct src; discriminate Herr.
  - by exists config.
Defined.

(** ** Further properties of the classifiers *)

Lemma infer_tier_reason_iff technique :
  infer_tier technique = "reason" ↔
  any_in reason_keywords (lower technique) = true.
Proof.
  unfold infer_tier. cbv zeta. fold reason_keywords strong_keywords.
  destruct (any_in reason_keywords (lower technique)); [done |].
  by destruct (any_in strong_keywords (lower technique)).
Qed.

Lemma should_use_reasoning_model_any flag (keywords : list string) technique :
  should_use_reasoning_model flag keywords technique =
  flag && any_in keywords (lower technique).
Proof.
  unfold should_use_reasoning_model. destruct flag; simpl; [|done].
  fold (any_in keywords (lower technique)).
  destruct (existsb (String.eqb (lower technique)) keywords) eqn:Hexact; [|done].
  symmetry. apply any_in_spec.
  apply existsb_exists in Hexact as (k & Hk & Heq).
  apply String.eqb_eq in Heq as <-.
  exists (lower technique). split; [by apply list_elem_of_In |].
  apply substring_of_refl.
Qed.

Lemma get_context_window_top_row model :
  get_context_window model = 128000 ↔
  any_in ["gpt-4o"; "o3"; "o1"; "gpt-4"] (lower model) = true.
Proof.
  unfold get_context_window. cbv zeta.
  destruct (any_in ["gpt-4o"; "o3"; "o1"; "gpt-4"] (lower model)); [done |].
  split; [|done]. by repeat case_match.
Qed.

(** X11. Letter case never matters: lower-casing the model identifier or
    the technique beforehand changes nothing in [get_context_window], in
    the tier inferred by [pick_model], or in
    [should_use_reasoning_model]. *)
Theorem classifiers_ignore_case flag (keywords : list string) s :
  get_context_window (lower s) = get_context_window s ∧
  infer_tier (lower s) = infer_tier s ∧
  (∀ w provider tier config_path,
     pick_model provider (lower s) tier config_path w =
     pick_model provider s tier config_path w) ∧
  should_use_reasoning_model flag keywords (lower s) =
    should_use_reasoning_model flag keywords s.
Proof.
  assert (infer_tier (lower s) = infer_tier s) as Htier
    by (unfold infer_tier; by rewrite lower_idem).
  split; [unfold get_context_window; by rewrite lower_idem |].
  split; [done |]. split.
  - intros w provider tier config_path. unfold pick_model.
    destruct tier; [done | by rewrite Htier].
  - unfold should_use_reasoning_model. by rewrite lower_idem.
Qed.

(** X12. [get_context_window] stays between the default, 8000, and the
    largest capacity of the table, 2000000. *)
Theorem get_context_window_bounds model :
  8000 ≤ get_context_window model ≤ 2000000.
Proof. unfold get_context_window. cbv zeta. repeat case_match; lia. Qed.

(** X13. The exact-match test of [should_use_reasoning_model] never
    changes the answer: the function is the flag and the substring test
    over the keywords.  With no keywords it is false; with the empty
    string among the keywords and the flag on it is true for every
    technique. *)
Theorem should_use_reasoning_model_substring_only
    flag (keywords : list string) technique :
  should_use_reasoning_model flag keywords technique =
    flag && any_in keywords (lower technique) ∧
  should_use_reasoning_model flag [] technique = false ∧
  ("" ∈ keywords → should_use_reasoning_model true keywords technique = true).
Proof.
  split; [apply should_use_reasoning_model_any |]. split.
  - rewrite should_use_reasoning_model_any. by destruct flag.
  - intros Hin. rewrite should_use_reasoning_model_any. simpl.
    apply any_in_spec. exists "". split; [done |]. by exists "", (lower technique).
Qed.

Lemma should_use_reasoning_model_substring_only_witness :
  should_use_reasoning_model true ["cot"; ""] "plain question" = true.
Proof.
  apply (should_use_reasoning_model_substring_only true ["cot"; ""]
           "plain question").
  apply list_elem_of_further, list_elem_of_here.
Defined.

(** X14. The two classifiers agree when the loader is configured with the
    reasoning keywords of [pick_model] and the flag is on:
    [should_use_reasoning_model] answers true exactly for the techniques
    that [pick_model] sends to the "reason" tier. *)
Theorem classifiers_agree_on_reasoning technique :
  should_use_reasoning_model true ["cot"; "tot"; "reason"; "think"] technique
    = true ↔
  infer_tier technique = "reason".
Proof.
  by rewrite should_use_reasoning_model_any, infer_tier_reason_iff.
Qed.

(** X15. Keyword matching survives embedding: a technique that is sent to
    the "reason" tier is still sent there with any text put before and
    after it, and a model identifier in the 128000 class stays in it with
    any text put before and after it. *)
Theorem top_rule_survives_embedding a s b :
  (infer_tier s = "reason" → infer_tier (a +:+ s +:+ b) = "reason") ∧
  (get_context_window s = 128000 →
   get_context_window (a +:+ s +:+ b) = 128000).
Proof.
  split.
  - rewrite !infer_tier_reason_iff, !any_in_spec, !lower_app.
    apply contains_any_embed.
  - rewrite !get_context_window_top_row, !any_in_spec, !lower_app.
    apply contains_any_embed.
Qed.

Lemma top_rule_survives_embedding_witness :
  infer_tier "zero-shot-CoT-v2" = "reason" ∧
  get_context_window "azure/GPT-4-turbo" = 128000.
Proof.
  split.
  - apply (top_rule_survives_embedding "zero-shot-" "CoT" "-v2"). reflexivity.
  - apply (top_rule_survives_embedding "azure/" "GPT-4" "-turbo"). reflexivity.
Defined.
